(** * The [radio] namespace of pxt-microbit (libs/radio/radio.ts)

    The file is a binding layer: five functions register a closure with
    the native hook [onDataReceived]; each closure dequeues a packet
    ([receiveNumber]), reads native accessors into a fresh [Packet],
    stores it in the module-level variable [lastPacket] and calls the
    user callback.  [getReceivedPacketProperty] reads [lastPacket].

    The native hooks are firmware, not part of radio.ts: they are taken
    as a parameter (a firmware state [N] and an implementation of every
    hook on it), and every result below holds for all of them. *)

From Stdlib Require Import ZArith List String Bool Lia.
Import ListNotations.
Local Open Scope Z_scope.
Local Open Scope string_scope.
Local Open Scope list_scope.

Set Implicit Arguments.

(** ** Values *)

(** [number]: radio.ts does no arithmetic, it compares a number with the
    enum members and passes numbers on; integers stand for them. *)
Definition number : Type := Z.

Definition Buffer : Type := list Byte.byte.

(** A class field declared without an initialiser ([public time: number;])
    holds [undefined] until the first assignment. *)
Inductive slot (T : Type) : Type :=
| undefined
| assigned (v : T).
Arguments undefined {T}.

(** ** [class Packet] (lines 6-34) *)

Module Packet.

Record t : Type := mk {
  receivedNumber : slot number;
  receivedString : slot string;
  receivedBuffer : slot Buffer;
  time : slot number;
  serial : slot number;
  signal : slot number
}.

(** [new Packet()]: the class has no constructor and no initialisers. *)
Definition new : t :=
  {| receivedNumber := undefined; receivedString := undefined;
     receivedBuffer := undefined; time := undefined;
     serial := undefined; signal := undefined |}.

(** Field assignments [packet.f = v]. *)
Definition set_receivedNumber (v : number) (p : t) : t :=
  mk (assigned v) (receivedString p) (receivedBuffer p) (time p) (serial p) (signal p).
Definition set_receivedString (v : string) (p : t) : t :=
  mk (receivedNumber p) (assigned v) (receivedBuffer p) (time p) (serial p) (signal p).
Definition set_receivedBuffer (v : Buffer) (p : t) : t :=
  mk (receivedNumber p) (receivedString p) (assigned v) (time p) (serial p) (signal p).
Definition set_time (v : number) (p : t) : t :=
  mk (receivedNumber p) (receivedString p) (receivedBuffer p) (assigned v) (serial p) (signal p).
Definition set_serial (v : number) (p : t) : t :=
  mk (receivedNumber p) (receivedString p) (receivedBuffer p) (time p) (assigned v) (signal p).
Definition set_signal (v : number) (p : t) : t :=
  mk (receivedNumber p) (receivedString p) (receivedBuffer p) (time p) (serial p) (assigned v).

(** The record seen as the tuple of its fields, in declaration order. *)
Definition fields : Type :=
  slot number * slot string * slot Buffer * slot number * slot number * slot number.

Definition to_fields (p : t) : fields :=
  (receivedNumber p, receivedString p, receivedBuffer p, time p, serial p, signal p).

Definition of_fields (f : fields) : t :=
  let '(n, s, b, t, sn, sg) := f in mk n s b t sn sg.

End Packet.

Abbreviation Packet := Packet.t.

(** ** [enum PacketProperty] (lines 36-46)

    A numeric enum: its members are the numbers 0, 1, 2 and a value of
    the enum type is a number at run time. *)

Module PacketProperty.
Definition t : Type := number.
Definition Time : t := 0.
Definition SerialNumber : t := 1.
Definition SignalStrength : t := 2.
End PacketProperty.

(** ** What the namespace exports *)

Inductive decl_kind : Type := class_decl | enum_decl | function_decl.

Definition decl_kind_eqb (a b : decl_kind) : bool :=
  match a, b with
  | class_decl, class_decl | enum_decl, enum_decl
  | function_decl, function_decl => true
  | _, _ => false
  end.

(** Every [export] of the namespace, in source order. *)
Definition exports : list (string * decl_kind) :=
  [ ("Packet", class_decl);
    ("PacketProperty", enum_decl);
    ("onDataPacketReceived", function_decl);
    ("onReceivedNumber", function_decl);
    ("onReceivedValue", function_decl);
    ("onReceivedString", function_decl);
    ("onReceivedBuffer", function_decl);
    ("getReceivedPacketProperty", function_decl);
    ("_packetProperty", function_decl) ].

Definition exported (k : decl_kind) : list string :=
  map fst (filter (fun d => decl_kind_eqb (snd d) k) exports).

(** ** Native hooks

    The hooks radio.ts calls, indexed by what they return.
    [onDataReceived], the registration hook, is [registration] below. *)

Inductive hook : Type -> Type :=
| receiveNumber : hook number
| receivedNumber : hook number
| receivedTime : hook number
| receivedSerial : hook number
| receivedString : hook string
| receivedBuffer : hook Buffer
| receivedSignalStrength : hook number.

(** [same_hook h g] is the identity cast when [h] and [g] are the same
    hook. *)
Definition same_hook {X Y} (h : hook X) (g : hook Y) : option (X -> Y) :=
  match h in hook X, g in hook Y return option (X -> Y) with
  | receiveNumber, receiveNumber => Some (fun x => x)
  | receivedNumber, receivedNumber => Some (fun x => x)
  | receivedTime, receivedTime => Some (fun x => x)
  | receivedSerial, receivedSerial => Some (fun x => x)
  | receivedString, receivedString => Some (fun x => x)
  | receivedBuffer, receivedBuffer => Some (fun x => x)
  | receivedSignalStrength, receivedSignalStrength => Some (fun x => x)
  | _, _ => None
  end.

(** ** Programs

    The statements of radio.ts: return, call a native hook, read or write
    the module variable [lastPacket], call a user callback.  [U] is the
    type of user actions: a callback applied to its arguments. *)

Inductive prog (U A : Type) : Type :=
| Ret (a : A)
| Native X (h : hook X) (k : X -> prog U A)
| Load (k : option Packet -> prog U A)
| Store (p : Packet) (k : prog U A)
| Invoke (u : U) (k : prog U A).
Arguments Ret {U A} a.
Arguments Native {U A X} h k.
Arguments Load {U A} k.
Arguments Store {U A} p k.
Arguments Invoke {U A} u k.

Fixpoint bind {U A B} (m : prog U A) (f : A -> prog U B) : prog U B :=
  match m with
  | Ret a => f a
  | Native h k => Native h (fun x => bind (k x) f)
  | Load k => Load (fun l => bind (k l) f)
  | Store p k => Store p (bind k f)
  | Invoke u k => Invoke u (bind k f)
  end.

Definition call {U X} (h : hook X) : prog U X := Native h (fun x => Ret x).
Definition read_lastPacket {U} : prog U (option Packet) := Load (fun l => Ret l).
Definition write_lastPacket {U} (p : Packet) : prog U unit := Store p (Ret tt).
Definition invoke {U} (u : U) : prog U unit := Invoke u (Ret tt).

Declare Scope radio_scope.
Delimit Scope radio_scope with radio.
Notation "x <- m ;; k" := (bind m (fun x => k))
  (at level 61, m at next level, right associativity) : radio_scope.
Notation "m ;; k" := (bind m (fun _ => k))
  (at level 61, right associativity) : radio_scope.
Local Open Scope radio_scope.

(** [onDataReceived(body)]: the closure handed to the native layer, which
    runs it on every data event. *)
Inductive registration (U : Type) : Type :=
| onDataReceived (body : prog U unit).

Definition handler {U} (r : registration U) : prog U unit :=
  match r with onDataReceived body => body end.

(** ** The registration functions (lines 57-143) *)

Section Registration.
Variable U : Type.

Definition onDataPacketReceived (cb : Packet -> U) : registration U :=
  onDataReceived (
    call receiveNumber ;;
    let packet := Packet.new in
    v <- call receivedNumber ;;
    let packet := Packet.set_receivedNumber v packet in
    v <- call receivedTime ;;
    let packet := Packet.set_time v packet in
    v <- call receivedSerial ;;
    let packet := Packet.set_serial v packet in
    v <- call receivedString ;;
    let packet := Packet.set_receivedString v packet in
    v <- call receivedBuffer ;;
    let packet := Packet.set_receivedBuffer v packet in
    v <- call receivedSignalStrength ;;
    let packet := Packet.set_signal v packet in
    write_lastPacket packet ;;
    invoke (cb packet)).

(** [cb(packet.receivedNumber)]: the callback is passed what the field
    read yields. *)
Definition onReceivedNumber (cb : slot number -> U) : registration U :=
  onDataReceived (
    call receiveNumber ;;
    let packet := Packet.new in
    v <- call receivedTime ;;
    let packet := Packet.set_time v packet in
    v <- call receivedSerial ;;
    let packet := Packet.set_serial v packet in
    v <- call receivedSignalStrength ;;
    let packet := Packet.set_signal v packet in
    v <- call receivedNumber ;;
    let packet := Packet.set_receivedNumber v packet in
    write_lastPacket packet ;;
    invoke (cb (Packet.receivedNumber packet))).

Definition onReceivedValue (cb : slot string -> slot number -> U) : registration U :=
  onDataReceived (
    call receiveNumber ;;
    let packet := Packet.new in
    v <- call receivedTime ;;
    let packet := Packet.set_time v packet in
    v <- call receivedSerial ;;
    let packet := Packet.set_serial v packet in
    v <- call receivedSignalStrength ;;
    let packet := Packet.set_signal v packet in
    v <- call receivedNumber ;;
    let packet := Packet.set_receivedNumber v packet in
    v <- call receivedString ;;
    let packet := Packet.set_receivedString v packet in
    write_lastPacket packet ;;
    invoke (cb (Packet.receivedString packet) (Packet.receivedNumber packet))).

Definition onReceivedString (cb : slot string -> U) : registration U :=
  onDataReceived (
    call receiveNumber ;;
    let packet := Packet.new in
    v <- call receivedTime ;;
    let packet := Packet.set_time v packet in
    v <- call receivedSerial ;;
    let packet := Packet.set_serial v packet in
    v <- call receivedSignalStrength ;;
    let packet := Packet.set_signal v packet in
    v <- call receivedString ;;
    let packet := Packet.set_receivedString v packet in
    write_lastPacket packet ;;
    invoke (cb (Packet.receivedString packet))).

Definition onReceivedBuffer (cb : slot Buffer -> U) : registration U :=
  onDataReceived (
    call receiveNumber ;;
    let packet := Packet.new in
    v <- call receivedTime ;;
    let packet := Packet.set_time v packet in
    v <- call receivedSerial ;;
    let packet := Packet.set_serial v packet in
    v <- call receivedSignalStrength ;;
    let packet := Packet.set_signal v packet in
    v <- call receivedBuffer ;;
    let packet := Packet.set_receivedBuffer v packet in
    write_lastPacket packet ;;
    invoke (cb (Packet.receivedBuffer packet))).

(** The five ways radio.ts registers a handler. *)
Inductive registered : registration U -> Prop :=
| reg_packet cb : registered (onDataPacketReceived cb)
| reg_number cb : registered (onReceivedNumber cb)
| reg_value cb : registered (onReceivedValue cb)
| reg_string cb : registered (onReceivedString cb)
| reg_buffer cb : registered (onReceivedBuffer cb).

(** ** [getReceivedPacketProperty] (lines 152-161)

    [if (lastPacket)]: an unset variable is falsy, an object is truthy.
    The [switch] compares with [===] and has no default case. *)
Definition getReceivedPacketProperty (type : number) : prog U (slot number) :=
  lastPacket <- read_lastPacket ;;
  match lastPacket with
  | Some lastPacket =>
      if (type =? PacketProperty.Time)%Z then Ret (Packet.time lastPacket)
      else if (type =? PacketProperty.SerialNumber)%Z then Ret (Packet.serial lastPacket)
      else if (type =? PacketProperty.SignalStrength)%Z then Ret (Packet.signal lastPacket)
      else Ret (assigned 0)
  | None => Ret (assigned 0)
  end.

End Registration.

(** ** [_packetProperty] (lines 169-171) *)
Definition _packetProperty (type : PacketProperty.t) : number := type.

(** ** Running a program

    The state is the firmware's state and the module variable
    [lastPacket] ([let lastPacket: Packet;], unset at start).  A user
    action may do anything to that state: it can call hooks, and it can
    write to the packet it was handed, which is the object [lastPacket]
    refers to. *)

Section Semantics.
Variable N : Type.
Variable firmware : forall X, hook X -> N -> X * N.
Variable U : Type.

Record World : Type := mkWorld {
  native : N;
  lastPacket : option Packet
}.

Definition boot (n : N) : World := {| native := n; lastPacket := None |}.

Variable user : U -> World -> World.

Inductive event : Type :=
| EvNative X (h : hook X) (x : X)
| EvStore (p : Packet)
| EvInvoke (u : U).

(** A run yields the events in order, each with the state it happened
    in, the value returned and the state left. *)
Record outcome (A : Type) : Type := mkOutcome {
  trace : list (World * event);
  result : A;
  final : World
}.

Definition after {A} (o : World * event) (r : outcome A) : outcome A :=
  {| trace := o :: trace r; result := result r; final := final r |}.

Fixpoint run {A} (p : prog U A) (w : World) : outcome A :=
  match p with
  | Ret a => {| trace := []; result := a; final := w |}
  | Native h k =>
      let r := firmware h (native w) in
      after (w, EvNative h (fst r))
            (run (k (fst r)) {| native := snd r; lastPacket := lastPacket w |})
  | Load k => run (k (lastPacket w)) w
  | Store p k =>
      after (w, EvStore p) (run k {| native := native w; lastPacket := Some p |})
  | Invoke u k => after (w, EvInvoke u) (run k (user u w))
  end.

(** *** Reading a trace *)

Definition events (tr : list (World * event)) : list event := map snd tr.

(** What the calls of hook [g] returned, in order. *)
Definition answer {Y} (g : hook Y) (e : event) : list Y :=
  match e with
  | EvNative h x =>
      match same_hook h g with Some cast => [cast x] | None => [] end
  | _ => []
  end.

Definition answers {Y} (g : hook Y) (tr : list (World * event)) : list Y :=
  flat_map (fun o => answer g (snd o)) tr.

(** The records written to [lastPacket], in order. *)
Definition stored (tr : list (World * event)) : list Packet :=
  flat_map (fun o => match snd o with EvStore p => [p] | _ => [] end) tr.

(** The user actions invoked, in order. *)
Definition invoked (tr : list (World * event)) : list U :=
  flat_map (fun o => match snd o with EvInvoke u => [u] | _ => [] end) tr.

(** Reads of the native accessors: every hook but the dequeue. *)
Definition is_accessor (e : event) : bool :=
  match e with
  | EvNative h _ =>
      match same_hook h receiveNumber with Some _ => false | None => true end
  | _ => false
  end.

Definition is_dequeue (e : event) : bool :=
  match e with
  | EvNative h _ =>
      match same_hook h receiveNumber with Some _ => true | None => false end
  | _ => false
  end.

(** A field and the accessor it is read from agree on a trace: the
    field was assigned [v] and the accessor was called once and
    returned [v], or the field was never assigned and the accessor
    never called. *)
Definition reads {X} (g : hook X) (f : slot X) (tr : list (World * event)) : Prop :=
  match f with
  | assigned v => answers g tr = [v]
  | undefined => answers g tr = []
  end.

Definition populated (tr : list (World * event)) (p : Packet) : Prop :=
  reads receivedNumber (Packet.receivedNumber p) tr /\
  reads receivedString (Packet.receivedString p) tr /\
  reads receivedBuffer (Packet.receivedBuffer p) tr /\
  reads receivedTime (Packet.time p) tr /\
  reads receivedSerial (Packet.serial p) tr /\
  reads receivedSignalStrength (Packet.signal p) tr.

(** The field holds what the one call of its accessor returned. *)
Definition from_accessor {X} (g : hook X) (f : slot X)
    (tr : list (World * event)) : Prop :=
  exists v, f = assigned v /\ answers g tr = [v].

(** A run that does [pre], then [lastPacket = p], then calls the user
    action [u] and ends: nothing is stored or invoked during [pre], and
    the user action starts in a state whose [lastPacket] is [p]. *)
Definition retained_then_called (o : outcome unit)
    (pre : list (World * event)) (p : Packet) (u : U) : Prop :=
  exists wS wI,
    trace o = pre ++ [(wS, EvStore p); (wI, EvInvoke u)] /\
    stored pre = [] /\ invoked pre = [] /\
    lastPacket wI = Some p /\
    final o = user u wI.

End Semantics.

Arguments EvNative {U X} h x.
Arguments EvStore {U} p.
Arguments EvInvoke {U} u.

(** ** A simulated firmware, to run the handlers on

    A queue of frames and the frame last dequeued; the accessors read
    the latter. *)

Module Sim.

Record frame : Type := mkFrame {
  f_number : number;
  f_string : string;
  f_buffer : Buffer;
  f_time : number;
  f_serial : number;
  f_signal : number
}.

Record state : Type := mkState {
  queue : list frame;
  current : frame
}.

Definition no_frame : frame := mkFrame 0 "" [] 0 0 0.

Definition firmware X (h : hook X) (s : state) : X * state :=
  match h in hook X return X * state with
  | receiveNumber =>
      match queue s with
      | [] => (0%Z, mkState [] no_frame)
      | f :: q => (f_number f, mkState q f)
      end
  | receivedNumber => (f_number (current s), s)
  | receivedTime => (f_time (current s), s)
  | receivedSerial => (f_serial (current s), s)
  | receivedString => (f_string (current s), s)
  | receivedBuffer => (f_buffer (current s), s)
  | receivedSignalStrength => (f_signal (current s), s)
  end.

(** A number frame and a value frame in flight. *)
Definition number_frame : frame := mkFrame 7 "" [] 1000 42 (-60).
Definition value_frame : frame := mkFrame 5 "x" [] 2000 43 (-70).

Definition on_air : state := mkState [number_frame; value_frame] no_frame.

(** User actions that record what they were called with. *)
Inductive action : Type :=
| got_packet (p : Packet)
| got_number (n : slot number)
| got_value (s : slot string) (n : slot number)
| got_string (s : slot string)
| got_buffer (b : slot Buffer).

(** The simulated user code leaves the state alone. *)
Definition user (_ : action) (w : World state) : World state := w.

Definition exec {A} (p : prog action A) (w : World state) : outcome state action A :=
  run firmware user p w.

(** The state after the number frame went through [onReceivedNumber]. *)
Definition after_number : World state :=
  final (exec (handler (onReceivedNumber got_number)) (boot on_air)).

(** The record that run leaves in [lastPacket]. *)
Definition number_packet : Packet :=
  Packet.mk (assigned 7%Z) undefined undefined
            (assigned 1000%Z) (assigned 42%Z) (assigned (-60)%Z).

(** The same frames in flight, with a record retained from earlier. *)
Definition with_earlier_packet : World state :=
  {| native := on_air; lastPacket := Some number_packet |}.

End Sim.

(** * Properties *)

Section Properties.
Variable N : Type.
Variable firmware : forall X, hook X -> N -> X * N.
Variable U : Type.
Variable user : U -> World N -> World N.

Local Abbreviation exec := (run firmware user).

(** ** Shape of a handler run

    Every handler dequeues, reads accessors only, stores the record it
    built and then calls the user action; the record holds what the
    accessors returned. *)

Ltac run_handler := cbn [handler run bind call write_lastPacket invoke after
                          trace result final native lastPacket
                          onDataPacketReceived onReceivedNumber onReceivedValue
                          onReceivedString onReceivedBuffer].

Lemma handler_run (r : registration U) (w : World N) :
  registered r ->
  exists d rd p wS wI u,
    trace (exec (handler r) w)
      = (w, EvNative receiveNumber d) :: rd ++ [(wS, EvStore p); (wI, EvInvoke u)] /\
    forallb (fun o => is_accessor (snd o)) rd = true /\
    populated rd p /\
    lastPacket wI = Some p /\
    final (exec (handler r) w) = user u wI.
Proof.
  intros [cb | cb | cb | cb | cb]; run_handler.
  - eexists _, [_; _; _; _; _; _], _, _, _, _.
    split; [reflexivity|]. repeat split; reflexivity.
  - eexists _, [_; _; _; _], _, _, _, _.
    split; [reflexivity|]. repeat split; reflexivity.
  - eexists _, [_; _; _; _; _], _, _, _, _.
    split; [reflexivity|]. repeat split; reflexivity.
  - eexists _, [_; _; _; _], _, _, _, _.
    split; [reflexivity|]. repeat split; reflexivity.
  - eexists _, [_; _; _; _], _, _, _, _.
    split; [reflexivity|]. repeat split; reflexivity.
Qed.

(** Accessor reads write nothing, call nothing and dequeue nothing. *)
Lemma accessor_not_dequeue (e : event U) :
  is_accessor e = true -> is_dequeue e = false.
Proof.
  destruct e as [X h x | p | u]; simpl; try discriminate.
  destruct (same_hook h receiveNumber); [discriminate | reflexivity].
Qed.

Lemma accessors_quiet (tr : list (World N * event U)) :
  forallb (fun o => is_accessor (snd o)) tr = true ->
  stored tr = [] /\ invoked tr = [] /\ filter (@is_dequeue U) (events tr) = [].
Proof.
  induction tr as [| [w e] tr IH]; simpl; intros H.
  - repeat split.
  - apply andb_prop in H as [He Htr].
    destruct (IH Htr) as (Hs & Hi & Hd).
    rewrite (accessor_not_dequeue e He).
    destruct e as [X h x | p | u]; simpl in *; try discriminate.
    repeat split; assumption.
Qed.

Lemma events_app (l1 l2 : list (World N * event U)) :
  events (l1 ++ l2) = events l1 ++ events l2.
Proof. apply map_app. Qed.

Lemma getReceivedPacketProperty_run (type : number) (w : World N) :
  exec (getReceivedPacketProperty U type) w =
  {| trace := [];
     result :=
       match lastPacket w with
       | Some p =>
           if (type =? PacketProperty.Time)%Z then Packet.time p
           else if (type =? PacketProperty.SerialNumber)%Z then Packet.serial p
           else if (type =? PacketProperty.SignalStrength)%Z then Packet.signal p
           else assigned 0%Z
       | None => assigned 0%Z
       end;
     final := w |}.
Proof.
  unfold getReceivedPacketProperty; simpl.
  destruct (lastPacket w) as [p |]; [| reflexivity].
  destruct (type =? PacketProperty.Time)%Z; [reflexivity |].
  destruct (type =? PacketProperty.SerialNumber)%Z; [reflexivity |].
  destruct (type =? PacketProperty.SignalStrength)%Z; reflexivity.
Qed.

(** ** [getReceivedPacketProperty] *)

(** C1.  While no packet has been received ([lastPacket] is unset),
    [getReceivedPacketProperty(type)] returns 0, whatever [type] is. *)
Theorem getReceivedPacketProperty_unset (w : World N) (type : number) :
  lastPacket w = None ->
  result (exec (getReceivedPacketProperty U type) w) = assigned 0%Z.
Proof.
  intros Hnone. rewrite getReceivedPacketProperty_run; simpl.
  rewrite Hnone. reflexivity.
Qed.

(** C2.  Once [lastPacket] holds a record, the function returns that
    record's [time] for [PacketProperty.Time], its [serial] for
    [PacketProperty.SerialNumber] and its [signal] for
    [PacketProperty.SignalStrength]. *)
Theorem getReceivedPacketProperty_set (w : World N) (p : Packet) :
  lastPacket w = Some p ->
  result (exec (getReceivedPacketProperty U PacketProperty.Time) w)
    = Packet.time p /\
  result (exec (getReceivedPacketProperty U PacketProperty.SerialNumber) w)
    = Packet.serial p /\
  result (exec (getReceivedPacketProperty U PacketProperty.SignalStrength) w)
    = Packet.signal p.
Proof.
  intros Hsome. rewrite !getReceivedPacketProperty_run; simpl.
  rewrite Hsome. repeat split.
Qed.

(** C7.  For a [type] that is none of [Time], [SerialNumber],
    [SignalStrength], [getReceivedPacketProperty(type)] returns 0 in
    every state, a populated [lastPacket] included. *)
Theorem getReceivedPacketProperty_other (w : World N) (type : number) :
  type <> PacketProperty.Time ->
  type <> PacketProperty.SerialNumber ->
  type <> PacketProperty.SignalStrength ->
  result (exec (getReceivedPacketProperty U type) w) = assigned 0%Z.
Proof.
  intros Ht Hn Hs. rewrite getReceivedPacketProperty_run; simpl.
  destruct (lastPacket w) as [p |]; [| reflexivity].
  apply Z.eqb_neq in Ht, Hn, Hs. rewrite Ht, Hn, Hs. reflexivity.
Qed.

(** ** The handlers *)

(** C3.  In every run of a handler registered by any of the five
    functions, the record is built from what the native accessors
    returned in this run and written to [lastPacket] before the user
    callback is called: nothing is stored or invoked earlier, the store
    is directly followed by the one invocation, and the state the
    callback starts in has [lastPacket] holding that record.  The time,
    serial and signal fields, and the payload fields the function hands
    to its callback, each hold what the one call of their accessor
    returned; any other field is assigned only from its accessor. *)
Theorem stored_before_callback (w : World N) :
  (forall cb, let o := exec (handler (onDataPacketReceived cb)) w in
     exists pre p,
       retained_then_called user o pre p
         (cb p) /\
       from_accessor receivedTime (Packet.time p) pre /\
       from_accessor receivedSerial (Packet.serial p) pre /\
       from_accessor receivedSignalStrength (Packet.signal p) pre /\
       from_accessor receivedNumber (Packet.receivedNumber p) pre /\
       from_accessor receivedString (Packet.receivedString p) pre /\
       from_accessor receivedBuffer (Packet.receivedBuffer p) pre /\
       populated pre p) /\
  (forall cb, let o := exec (handler (onReceivedNumber cb)) w in
     exists pre p,
       retained_then_called user o pre p
         (cb (Packet.receivedNumber p)) /\
       from_accessor receivedTime (Packet.time p) pre /\
       from_accessor receivedSerial (Packet.serial p) pre /\
       from_accessor receivedSignalStrength (Packet.signal p) pre /\
       from_accessor receivedNumber (Packet.receivedNumber p) pre /\
       populated pre p) /\
  (forall cb, let o := exec (handler (onReceivedValue cb)) w in
     exists pre p,
       retained_then_called user o pre p
         (cb (Packet.receivedString p) (Packet.receivedNumber p)) /\
       from_accessor receivedTime (Packet.time p) pre /\
       from_accessor receivedSerial (Packet.serial p) pre /\
       from_accessor receivedSignalStrength (Packet.signal p) pre /\
       from_accessor receivedNumber (Packet.receivedNumber p) pre /\
       from_accessor receivedString (Packet.receivedString p) pre /\
       populated pre p) /\
  (forall cb, let o := exec (handler (onReceivedString cb)) w in
     exists pre p,
       retained_then_called user o pre p
         (cb (Packet.receivedString p)) /\
       from_accessor receivedTime (Packet.time p) pre /\
       from_accessor receivedSerial (Packet.serial p) pre /\
       from_accessor receivedSignalStrength (Packet.signal p) pre /\
       from_accessor receivedString (Packet.receivedString p) pre /\
       populated pre p) /\
  (forall cb, let o := exec (handler (onReceivedBuffer cb)) w in
     exists pre p,
       retained_then_called user o pre p
         (cb (Packet.receivedBuffer p)) /\
       from_accessor receivedTime (Packet.time p) pre /\
       from_accessor receivedSerial (Packet.serial p) pre /\
       from_accessor receivedSignalStrength (Packet.signal p) pre /\
       from_accessor receivedBuffer (Packet.receivedBuffer p) pre /\
       populated pre p).
Proof.
  repeat split; intros cb o; subst o; run_handler;
    unfold retained_then_called, from_accessor.
  - eexists [_; _; _; _; _; _; _], (Packet.mk _ _ _ _ _ _).
    split; [eexists _, _; repeat split; reflexivity |].
    repeat split; try (eexists; split; reflexivity); reflexivity.
  - eexists [_; _; _; _; _], (Packet.mk _ _ _ _ _ _).
    split; [eexists _, _; repeat split; reflexivity |].
    repeat split; try (eexists; split; reflexivity); reflexivity.
  - eexists [_; _; _; _; _; _], (Packet.mk _ _ _ _ _ _).
    split; [eexists _, _; repeat split; reflexivity |].
    repeat split; try (eexists; split; reflexivity); reflexivity.
  - eexists [_; _; _; _; _], (Packet.mk _ _ _ _ _ _).
    split; [eexists _, _; repeat split; reflexivity |].
    repeat split; try (eexists; split; reflexivity); reflexivity.
  - eexists [_; _; _; _; _], (Packet.mk _ _ _ _ _ _).
    split; [eexists _, _; repeat split; reflexivity |].
    repeat split; try (eexists; split; reflexivity); reflexivity.
Qed.

(** C9.  Every run of a registered handler starts with the call of
    [receiveNumber()] and contains no other: the dequeue happens
    exactly once and before every accessor read. *)
Theorem dequeue_once_first (r : registration U) (w : World N) :
  registered r ->
  exists d rest,
    trace (exec (handler r) w) = (w, EvNative receiveNumber d) :: rest /\
    filter (@is_dequeue U) (events rest) = [] /\
    List.length (filter (@is_dequeue U) (events (trace (exec (handler r) w)))) = 1%nat.
Proof.
  intros Hr.
  destruct (handler_run w Hr) as (d & rd & p & wS & wI & u & Htr & Hacc & _).
  destruct (accessors_quiet rd Hacc) as (_ & _ & Hd).
  assert (Hrest : filter (@is_dequeue U)
                    (events (rd ++ [(wS, EvStore p); (wI, EvInvoke u)])) = []).
  { rewrite events_app, filter_app, Hd. reflexivity. }
  exists d, (rd ++ [(wS, EvStore p); (wI, EvInvoke u)]).
  split; [exact Htr |]. split; [exact Hrest |].
  rewrite Htr. cbn [events map snd filter is_dequeue same_hook].
  fold (events (rd ++ [(wS, EvStore p); (wI, EvInvoke u)])).
  rewrite Hrest. reflexivity.
Qed.

(** C5.  The user callback is called once, with what the accessors
    returned in this run: [receivedNumber()] for [onReceivedNumber],
    [receivedString()] for [onReceivedString], [receivedString()] and
    [receivedNumber()] for [onReceivedValue], [receivedBuffer()] for
    [onReceivedBuffer]; [onDataPacketReceived] hands over the record
    built from all six. *)
Theorem callback_arguments (w : World N) :
  (forall cb, let tr := trace (exec (handler (onReceivedNumber cb)) w) in
     exists n, answers receivedNumber tr = [n] /\
               invoked tr = [cb (assigned n)]) /\
  (forall cb, let tr := trace (exec (handler (onReceivedString cb)) w) in
     exists s, answers receivedString tr = [s] /\
               invoked tr = [cb (assigned s)]) /\
  (forall cb, let tr := trace (exec (handler (onReceivedValue cb)) w) in
     exists s n, answers receivedString tr = [s] /\
                 answers receivedNumber tr = [n] /\
                 invoked tr = [cb (assigned s) (assigned n)]) /\
  (forall cb, let tr := trace (exec (handler (onReceivedBuffer cb)) w) in
     exists b, answers receivedBuffer tr = [b] /\
               invoked tr = [cb (assigned b)]) /\
  (forall cb, let tr := trace (exec (handler (onDataPacketReceived cb)) w) in
     exists n s b t sn sg,
       answers receivedNumber tr = [n] /\ answers receivedString tr = [s] /\
       answers receivedBuffer tr = [b] /\ answers receivedTime tr = [t] /\
       answers receivedSerial tr = [sn] /\
       answers receivedSignalStrength tr = [sg] /\
       invoked tr = [cb (Packet.mk (assigned n) (assigned s) (assigned b)
                                   (assigned t) (assigned sn) (assigned sg))]).
Proof.
  repeat split; intros cb tr; subst tr; run_handler.
  - eexists. split; reflexivity.
  - eexists. split; reflexivity.
  - eexists _, _. repeat split; reflexivity.
  - eexists. split; reflexivity.
  - eexists _, _, _, _, _, _. repeat split; reflexivity.
Qed.

(** ** Handlers and [getReceivedPacketProperty] together *)

(** X1.  A property query made when the user callback starts answers for
    the packet being handled: [Time], [SerialNumber] and
    [SignalStrength] give what [receivedTime()], [receivedSerial()] and
    [receivedSignalStrength()] returned in this run, for each of the five
    registrations. *)
Theorem property_in_callback (r : registration U) (w : World N) :
  registered r ->
  exists pre wI u t sn sg,
    trace (exec (handler r) w) = pre ++ [(wI, EvInvoke u)] /\
    answers receivedTime pre = [t] /\
    answers receivedSerial pre = [sn] /\
    answers receivedSignalStrength pre = [sg] /\
    result (exec (getReceivedPacketProperty U PacketProperty.Time) wI)
      = assigned t /\
    result (exec (getReceivedPacketProperty U PacketProperty.SerialNumber) wI)
      = assigned sn /\
    result (exec (getReceivedPacketProperty U PacketProperty.SignalStrength) wI)
      = assigned sg.
Proof.
  intros [cb | cb | cb | cb | cb]; run_handler.
  - eexists [_; _; _; _; _; _; _; _], _, _, _, _, _.
    split; [reflexivity |]. repeat split; reflexivity.
  - eexists [_; _; _; _; _; _], _, _, _, _, _.
    split; [reflexivity |]. repeat split; reflexivity.
  - eexists [_; _; _; _; _; _; _], _, _, _, _, _.
    split; [reflexivity |]. repeat split; reflexivity.
  - eexists [_; _; _; _; _; _], _, _, _, _, _.
    split; [reflexivity |]. repeat split; reflexivity.
  - eexists [_; _; _; _; _; _], _, _, _, _, _.
    split; [reflexivity |]. repeat split; reflexivity.
Qed.

(** X2.  A handler run does not depend on the record retained before
    it: from two states with the same firmware state the same events
    happen and the same state results, whatever [lastPacket] held. *)
Theorem handler_ignores_earlier_packet (r : registration U) (w w' : World N) :
  registered r ->
  native w = native w' ->
  events (trace (exec (handler r) w)) = events (trace (exec (handler r) w')) /\
  final (exec (handler r) w) = final (exec (handler r) w').
Proof.
  intros Hr Hn. destruct w as [n l], w' as [n' l']; simpl in Hn; subst n'.
  destruct Hr as [cb | cb | cb | cb | cb]; run_handler; split; reflexivity.
Qed.

(** X3.  [getReceivedPacketProperty] only reads: it calls no native
    hook, stores nothing, invokes nothing and leaves the state as it
    was, for every [type] and every state. *)
Theorem getReceivedPacketProperty_read_only (w : World N) (type : number) :
  trace (exec (getReceivedPacketProperty U type) w) = [] /\
  final (exec (getReceivedPacketProperty U type) w) = w.
Proof. rewrite getReceivedPacketProperty_run; split; reflexivity. Qed.

(** X4.  When the user callback starts, [getReceivedPacketProperty]
    returns a number for every [type]: each handler has assigned the
    three fields the function can return. *)
Theorem property_defined_in_callback (r : registration U) (w : World N) :
  registered r ->
  exists pre wI u,
    trace (exec (handler r) w) = pre ++ [(wI, EvInvoke u)] /\
    forall type, exists v,
      result (exec (getReceivedPacketProperty U type) wI) = assigned v.
Proof.
  intros [cb | cb | cb | cb | cb]; run_handler.
  1: eexists [_; _; _; _; _; _; _; _], _, _.
  2, 4, 5: eexists [_; _; _; _; _; _], _, _.
  5: eexists [_; _; _; _; _; _; _], _, _.
  all: split; [reflexivity |]; intros type;
    rewrite getReceivedPacketProperty_run; cbn [result lastPacket];
    destruct (type =? PacketProperty.Time)%Z; [eexists; reflexivity |];
    destruct (type =? PacketProperty.SerialNumber)%Z; [eexists; reflexivity |];
    destruct (type =? PacketProperty.SignalStrength)%Z; eexists; reflexivity.
Qed.

(** X6.  The record stays for later queries: if user code leaves
    [lastPacket] alone, then after the handler has returned
    [getReceivedPacketProperty] still gives the time, serial number and
    signal strength the accessors returned in that run. *)
Theorem property_after_handler (r : registration U) (w : World N) :
  registered r ->
  (forall u s, lastPacket (user u s) = lastPacket s) ->
  let o := exec (handler r) w in
  exists t sn sg,
    answers receivedTime (trace o) = [t] /\
    answers receivedSerial (trace o) = [sn] /\
    answers receivedSignalStrength (trace o) = [sg] /\
    result (exec (getReceivedPacketProperty U PacketProperty.Time) (final o))
      = assigned t /\
    result (exec (getReceivedPacketProperty U PacketProperty.SerialNumber) (final o))
      = assigned sn /\
    result (exec (getReceivedPacketProperty U PacketProperty.SignalStrength) (final o))
      = assigned sg.
Proof.
  intros Hr Hkeep o; subst o.
  destruct Hr as [cb | cb | cb | cb | cb]; run_handler;
    rewrite !getReceivedPacketProperty_run; cbn [result];
    rewrite Hkeep; cbn [lastPacket];
    eexists _, _, _; repeat split; reflexivity.
Qed.

End Properties.

(** ** The record type *)

(** C6.  [Packet] is its six fields and nothing more: a numeric, a
    string and a buffer payload, the send time, the sender's serial
    number and the signal strength; and it is the only class the
    namespace exports. *)
Theorem packet_six_fields :
  (forall p : Packet, Packet.of_fields (Packet.to_fields p) = p) /\
  (forall f : Packet.fields, Packet.to_fields (Packet.of_fields f) = f) /\
  exported class_decl = ["Packet"].
Proof.
  split; [| split].
  - intros []; reflexivity.
  - intros [[[[[n s] b] t] sn] sg]; reflexivity.
  - reflexivity.
Qed.

(** ** [_packetProperty] *)

(** C8.  [_packetProperty] returns its argument unchanged. *)
Theorem packetProperty_identity (type : PacketProperty.t) :
  _packetProperty type = type.
Proof. reflexivity. Qed.

(** * The properties on the simulated firmware *)

Lemma getReceivedPacketProperty_unset_sim :
  lastPacket (boot Sim.on_air) = None /\
  result (Sim.exec (getReceivedPacketProperty Sim.action PacketProperty.SerialNumber)
                   (boot Sim.on_air)) = assigned 0%Z.
Proof.
  split; [reflexivity |].
  exact (getReceivedPacketProperty_unset Sim.firmware Sim.user (boot Sim.on_air)
           PacketProperty.SerialNumber eq_refl).
Defined.

Lemma getReceivedPacketProperty_set_sim :
  lastPacket Sim.after_number = Some Sim.number_packet /\
  result (Sim.exec (getReceivedPacketProperty Sim.action PacketProperty.Time)
                   Sim.after_number) = assigned 1000%Z /\
  result (Sim.exec (getReceivedPacketProperty Sim.action PacketProperty.SerialNumber)
                   Sim.after_number) = assigned 42%Z /\
  result (Sim.exec (getReceivedPacketProperty Sim.action PacketProperty.SignalStrength)
                   Sim.after_number) = assigned (-60)%Z.
Proof.
  split; [reflexivity |].
  exact (getReceivedPacketProperty_set Sim.firmware Sim.user Sim.after_number
           (p := Sim.number_packet) eq_refl).
Defined.

Lemma getReceivedPacketProperty_other_sim :
  lastPacket Sim.after_number = Some Sim.number_packet /\
  result (Sim.exec (getReceivedPacketProperty Sim.action 3%Z) Sim.after_number)
    = assigned 0%Z.
Proof.
  split; [reflexivity |].
  apply (getReceivedPacketProperty_other Sim.firmware Sim.user Sim.after_number (type := 3%Z));
    unfold PacketProperty.Time, PacketProperty.SerialNumber,
           PacketProperty.SignalStrength; lia.
Defined.

Lemma dequeue_once_first_sim :
  exists d rest,
    trace (Sim.exec (handler (onDataPacketReceived Sim.got_packet)) (boot Sim.on_air))
      = (boot Sim.on_air, EvNative receiveNumber d) :: rest /\
    filter (@is_dequeue Sim.action) (events rest) = [] /\
    List.length
      (filter (@is_dequeue Sim.action)
         (events (trace (Sim.exec (handler (onDataPacketReceived Sim.got_packet))
                                  (boot Sim.on_air))))) = 1%nat.
Proof.
  exact (dequeue_once_first Sim.firmware Sim.user (boot Sim.on_air)
           (reg_packet Sim.got_packet)).
Defined.

(** C4 does not hold of the code.  The doc comments of [Packet] promise
    0, the empty string and the empty buffer for a payload the packet
    did not carry, and [onDataPacketReceived] fills all three payload
    slots from the accessors; but the record [onReceivedNumber] builds
    has its string and buffer slots never assigned, and the record
    [onReceivedString] builds has its number and buffer slots never
    assigned. *)
Lemma payload_defaults_fail :
  (exists p,
     stored (trace (Sim.exec (handler (onReceivedNumber Sim.got_number))
                             (boot Sim.on_air))) = [p] /\
     Packet.receivedString p = undefined /\
     Packet.receivedBuffer p = undefined /\
     ~ (Packet.receivedString p = assigned "" /\
        Packet.receivedBuffer p = assigned [])) /\
  (exists p,
     stored (trace (Sim.exec (handler (onReceivedString Sim.got_string))
                             (boot Sim.on_air))) = [p] /\
     Packet.receivedNumber p = undefined /\
     Packet.receivedBuffer p = undefined /\
     ~ (Packet.receivedNumber p = assigned 0%Z /\
        Packet.receivedBuffer p = assigned [])).
Proof.
  split; eexists; (split; [reflexivity |]); simpl;
    (split; [reflexivity |]); (split; [reflexivity |]);
    intros [H _]; discriminate H.
Qed.

Lemma property_in_callback_sim :
  exists pre wI u t sn sg,
    trace (Sim.exec (handler (onReceivedString Sim.got_string)) (boot Sim.on_air))
      = pre ++ [(wI, EvInvoke u)] /\
    answers receivedTime pre = [t] /\
    answers receivedSerial pre = [sn] /\
    answers receivedSignalStrength pre = [sg] /\
    result (Sim.exec (getReceivedPacketProperty Sim.action PacketProperty.Time) wI)
      = assigned t /\
    result (Sim.exec (getReceivedPacketProperty Sim.action PacketProperty.SerialNumber) wI)
      = assigned sn /\
    result (Sim.exec (getReceivedPacketProperty Sim.action PacketProperty.SignalStrength) wI)
      = assigned sg.
Proof.
  exact (property_in_callback Sim.firmware Sim.user (boot Sim.on_air)
           (reg_string Sim.got_string)).
Defined.

Lemma handler_ignores_earlier_packet_sim :
  native (boot Sim.on_air) = native Sim.with_earlier_packet /\
  lastPacket (boot Sim.on_air) <> lastPacket Sim.with_earlier_packet /\
  events (trace (Sim.exec (handler (onReceivedBuffer Sim.got_buffer)) (boot Sim.on_air)))
    = events (trace (Sim.exec (handler (onReceivedBuffer Sim.got_buffer))
                              Sim.with_earlier_packet)) /\
  final (Sim.exec (handler (onReceivedBuffer Sim.got_buffer)) (boot Sim.on_air))
    = final (Sim.exec (handler (onReceivedBuffer Sim.got_buffer))
                      Sim.with_earlier_packet).
Proof.
  split; [reflexivity |]. split; [discriminate |].
  exact (handler_ignores_earlier_packet Sim.firmware Sim.user
           (boot Sim.on_air) Sim.with_earlier_packet
           (reg_buffer Sim.got_buffer) eq_refl).
Defined.

Lemma property_defined_in_callback_sim :
  exists pre wI u,
    trace (Sim.exec (handler (onDataPacketReceived Sim.got_packet)) (boot Sim.on_air))
      = pre ++ [(wI, EvInvoke u)] /\
    forall type, exists v,
      result (Sim.exec (getReceivedPacketProperty Sim.action type) wI) = assigned v.
Proof.
  exact (property_defined_in_callback Sim.firmware Sim.user (boot Sim.on_air)
           (reg_packet Sim.got_packet)).
Defined.

Lemma property_after_handler_sim :
  exists t sn sg,
    answers receivedTime
      (trace (Sim.exec (handler (onReceivedNumber Sim.got_number)) (boot Sim.on_air)))
      = [t] /\
    answers receivedSerial
      (trace (Sim.exec (handler (onReceivedNumber Sim.got_number)) (boot Sim.on_air)))
      = [sn] /\
    answers receivedSignalStrength
      (trace (Sim.exec (handler (onReceivedNumber Sim.got_number)) (boot Sim.on_air)))
      = [sg] /\
    result (Sim.exec (getReceivedPacketProperty Sim.action PacketProperty.Time)
                     Sim.after_number) = assigned t /\
    result (Sim.exec (getReceivedPacketProperty Sim.action PacketProperty.SerialNumber)
                     Sim.after_number) = assigned sn /\
    result (Sim.exec (getReceivedPacketProperty Sim.action PacketProperty.SignalStrength)
                     Sim.after_number) = assigned sg.
Proof.
  exact (property_after_handler Sim.firmware Sim.user (boot Sim.on_air)
           (reg_number Sim.got_number) (fun _ _ => eq_refl)).
Defined.
